(** * LDAP client core: Modify and Compare

    A shallow embedding of [modify.go] (Modify requests: data model,
    encoder, LDIF dump, the [Conn.Modify] call) and of the Compare file
    ([CompareRequest], [encodeCompareRequest], [Connection.Compare]),
    together with the properties the specification states about them.

    Conventions.
    - Go's [uint8]/[uint64] are [Z]; the only conversion in the code,
      [uint64(mod.ModOperation)], widens and is the identity.
    - Go strings are [string]; [fmt.Sprintf] with [%s] verbs is written
      out as concatenation.
    - A [*ber.Packet] is a tree.  The code only appends children that are
      already complete, so the pointer structure carries no aliasing that
      a value tree would lose.
    - The effects of a call (packets handed to the connection, debug
      output, release of the message id) are collected in a log. *)

From Stdlib Require Import ZArith List.
From Stdlib.Strings Require Import String Ascii Byte.
From stdpp Require Import base option list gmap strings.
Import ListNotations.

Set Warnings "-register-all".
Local Open Scope Z_scope.

(** Line feed, the ["\n"] of the Go string literals. *)
Definition LF : string := String "010"%char EmptyString.

(** The pieces of a text, one after the other. *)
Definition joined (pieces : list string) : string :=
  fold_right String.append EmptyString pieces.

(** ** The wire codec (package [ber]) *)

Module ber.

(** Modelled from the spec: the wire codec (package asn1-ber) is an
    external collaborator, not part of the sources.  What is kept of it
    is what the encoders use: a packet is a tagged node with a value, a
    data buffer, children and a description; [AppendChild] stores the
    child and writes the child's bytes into the parent's buffer;
    [Bytes] is identifier octet, length, buffer.  Identifier values are
    those of BER.  [TypePrimitive] is the constant modify.go spells
    [TypePrimative]. *)

Definition ClassUniversal : Z := 0.
Definition ClassApplication : Z := 64.
Definition TypePrimitive : Z := 0.
Definition TypeConstructed : Z := 32.
Definition TagInteger : Z := 2.
Definition TagOctetString : Z := 4.
Definition TagEnumerated : Z := 10.
Definition TagSequence : Z := 16.
Definition TagSet : Z := 17.

(** The [interface{}] stored in a packet's [Value] field. *)
Inductive value : Type :=
| Nil
| Uint (n : Z)
| Str (s : string).

Inductive Packet : Type := mkPacket {
  ClassType : Z;
  TagType : Z;
  Tag : Z;
  Value : value;
  Data : list byte;
  Children : list Packet;
  Description : string
}.

Definition byte_of_Z (z : Z) : byte :=
  match Byte.of_N (Z.to_N (z mod 256)) with
  | Some b => b
  | None => x00
  end.

(** [EncodeInteger]: the octets of a [uint64], most significant first,
    leading zero octets dropped, the last octet always written. *)
Fixpoint EncodeInteger_from (val : Z) (shifts : list Z) (found : bool) : list byte :=
  match shifts with
  | [] => []
  | shift :: rest =>
      let mask := Z.shiftl 255 shift in
      let found' := found || negb (Z.land val mask =? 0) in
      (if found' || (shift =? 0)
       then [byte_of_Z (Z.shiftr (Z.land val mask) shift)]
       else [])
      ++ EncodeInteger_from val rest found'
  end.

Definition EncodeInteger (val : Z) : list byte :=
  EncodeInteger_from val [56; 48; 40; 32; 24; 16; 8; 0] false.

Definition Encode (classType tagType tag : Z) (v : value) (description : string) : Packet :=
  {| ClassType := classType; TagType := tagType; Tag := tag;
     Value := v;
     Data := match v with
             | Str sv =>
                 if (classType =? ClassUniversal) && (tag =? TagOctetString)
                 then list_byte_of_string sv else []
             | _ => []
             end;
     Children := [];
     Description := description |}.

Definition NewInteger (classType tagType tag : Z) (v : Z) (description : string) : Packet :=
  {| ClassType := classType; TagType := tagType; Tag := tag;
     Value := Uint v;
     Data := EncodeInteger v;
     Children := [];
     Description := description |}.

Definition NewString (classType tagType tag : Z) (v : string) (description : string) : Packet :=
  {| ClassType := classType; TagType := tagType; Tag := tag;
     Value := Str v;
     Data := list_byte_of_string v;
     Children := [];
     Description := description |}.

Definition Bytes (p : Packet) : list byte :=
  let n := Z.of_nat (length (Data p)) in
  let packet_length := EncodeInteger n in
  [byte_of_Z (Z.lor (Z.lor (ClassType p) (TagType p)) (Tag p))]
  ++ (if (127 <? n) || (1 <? Z.of_nat (length packet_length))
      then byte_of_Z (Z.lor (Z.of_nat (length packet_length)) 128) :: packet_length
      else packet_length)
  ++ Data p.

Definition AppendChild (p child : Packet) : Packet :=
  {| ClassType := ClassType p; TagType := TagType p; Tag := Tag p;
     Value := Value p;
     Data := Data p ++ Bytes child;
     Children := Children p ++ [child];
     Description := Description p |}.

End ber.

(** ** Errors *)

(** [type Error struct { Err error; ResultCode uint8 }]; the wrapped
    [error] is kept as its message. *)
Record Error : Type := mkError {
  ResultCode : Z;
  Err : string
}.

(** [NewError(code, errors.New(msg))] of the Modify file and
    [newError(code, msg)] of the Compare file build the same value. *)
Definition NewError (resultCode : Z) (msg : string) : Error :=
  {| ResultCode := resultCode; Err := msg |}.

(** A Go [error] interface value that is not nil: either a [*Error] of
    this package or some other error type.  [nil] is [None]. *)
Inductive error : Type :=
| LDAPError (e : Error)
| OtherError (msg : string).

Definition newError (resultCode : Z) (msg : string) : error :=
  LDAPError (NewError resultCode msg).

(** ** The connection as one call sees it *)

(** What a receive on the reply channel yields: the reply, or the nil
    packet delivered when the connection closes first. *)
Definition Channel : Type := option ber.Packet.

(** Modelled from the spec: the connection type and its methods
    ([nextMessageID], [sendMessage], [finishMessage]) are declared
    outside the sources.  A connection is described by its debug flag and
    by what those methods answer during the call: the allocator yields
    an id and whether it is still open (section 4.1), submit yields a
    send error or a reply slot (section 4.3). *)
Record Conn : Type := mkConn {
  Debug : bool;
  allocator : Z * bool;
  sendMessage : ber.Packet -> option Channel * option Error
}.

(** The Compare file names the receiver type [Connection]. *)
Abbreviation Connection := Conn.

(** [Conn.nextMessageID] hands back the id alone. *)
Definition Conn_nextMessageID (l : Conn) : Z := fst (allocator l).

(** [Connection.nextMessageID] hands back the id and the open flag. *)
Definition Connection_nextMessageID (l : Connection) : Z * bool := allocator l.

Inductive Event : Type :=
| PrintPacket (p : ber.Packet)
| Printf (format : string) (messageID : Z)
| SendMessage (p : ber.Packet)
| FinishMessage (messageID : Z).

(** A computation with a log of events. *)
Definition Run (A : Type) : Type := A * list Event.

Definition ret {A} (a : A) : Run A := (a, []).

Definition bind {A B} (m : Run A) (k : A -> Run B) : Run B :=
  let '(a, t1) := m in
  let '(b, t2) := k a in
  (b, t1 ++ t2).

Definition emit (e : Event) : Run unit := (tt, [e]).

Definition when (b : bool) (m : Run unit) : Run unit :=
  if b then m else ret tt.

(** [defer f; body]: the deferred call runs when [body] has returned. *)
Definition defer {A} (e : Event) (body : Run A) : Run A :=
  let '(a, t) := body in (a, t ++ [e]).

Declare Scope run_scope.
Delimit Scope run_scope with run.
Notation "x <- m ;; k" := (bind m (fun x => k))
  (at level 100, m at next level, right associativity) : run_scope.
Notation "m ;; k" := (bind m (fun _ => k))
  (at level 100, right associativity) : run_scope.

(** What a run returned, and what it did. *)
Definition returned {A} (m : Run A) : A := fst m.
Definition events {A} (m : Run A) : list Event := snd m.

(** [l.sendMessage(packet)], logged. *)
Definition do_sendMessage (l : Conn) (packet : ber.Packet)
  : Run (option Channel * option Error) :=
  (sendMessage l packet, [SendMessage packet]).

(** The packets handed to [sendMessage], oldest first. *)
Definition sent (t : list Event) : list ber.Packet :=
  omap (fun e => match e with SendMessage p => Some p | _ => None end) t.

(** A Go result pair [(value, error)] with exactly one side set. *)
Inductive fallible (A : Type) : Type :=
| Ok (a : A)
| Fail (err : error).
Arguments Ok {A} a.
Arguments Fail {A} err.

Definition fallible_map {A B} (f : A -> B) (r : fallible A) : fallible B :=
  match r with
  | Ok a => Ok (f a)
  | Fail err => Fail err
  end.

(** Go's map index expression: the zero value for a missing key. *)
Definition index (m : gmap Z string) (k : Z) : string := default EmptyString (m !! k).

(** ** Declarations of the package outside the two files *)

(** The error kinds, the application description table, the reply
    interpreter and the helpers of the Compare path are declared
    elsewhere in package [ldap]; the development is parametric in them.
    [addLDAPDescriptions] annotates the reply in place: it yields the
    annotated packet and the message of its error, if any. *)
Class Package (Control : Type) : Type := {
  ErrorNetwork : Z;
  ErrorDebugging : Z;
  ErrorClosing : Z;
  ApplicationMap : gmap Z string;
  ApplicationString : Z -> string;
  getLDAPResultCode : ber.Packet -> Z * string;
  addLDAPDescriptions : ber.Packet -> ber.Packet * option string;
  encodeItem : list string -> fallible ber.Packet;
  requestBuildPacket : Z -> ber.Packet -> list Control -> fallible ber.Packet
}.

(** Modelled from the spec: the operation numbers are declared outside
    the sources; section 6 fixes Modify = 6 and Compare = 14, as do the
    ASN.1 comments of both files. *)
Definition ApplicationModifyRequest : Z := 6.
Definition ApplicationCompareRequest : Z := 14.

(** Modelled from the spec: the result codes of Compare are declared
    outside the sources; section 4.4 and the comment in [Compare] give
    compare-false = 5 and compare-true = 6. *)
Definition ResultCompareFalse : Z := 5.
Definition ResultCompareTrue : Z := 6.

(** ** modify.go *)

Module modify.

Definition ModAdd : Z := 0.
Definition ModDelete : Z := 1.
Definition ModReplace : Z := 2.

(** The package variable [ModMap] with the contents of its initialiser;
    nothing in the sources assigns to it. *)
Definition ModMap : gmap Z string :=
  {[ ModAdd := "add"%string; ModDelete := "delete"%string; ModReplace := "replace"%string ]}.

Record EntryAttribute : Type := mkEntryAttribute {
  Name : string;
  Values : list string
}.

Record Mod : Type := mkMod {
  ModOperation : Z;
  Modification : EntryAttribute
}.

Record ModifyRequest : Type := mkModifyRequest {
  DN : string;
  Mods : list Mod
}.

(** [mod] is reserved for the remainder, so a [Mod] in hand is [mod_]. *)

Section WithPackage.
Context {Control : Type} {pkg : Package Control}.

(** The body of the inner loop of [encodeModifyRequest]. *)
Definition appendValue (valuesSet : ber.Packet) (val : string) : ber.Packet :=
  let value := ber.NewString ber.ClassUniversal ber.TypePrimitive ber.TagOctetString val "AttributeValue" in
  ber.AppendChild valuesSet value.

(** The change record one turn of the outer loop builds. *)
Definition modificationOf (mod_ : Mod) : ber.Packet :=
  let modification := ber.Encode ber.ClassUniversal ber.TypeConstructed ber.TagSequence ber.Nil "Modification" in
  let op := ber.NewInteger ber.ClassUniversal ber.TypePrimitive ber.TagEnumerated (ModOperation mod_)
              ("Modify Op (" +:+ index ModMap (ModOperation mod_) +:+ ")") in
  let modification := ber.AppendChild modification op in
  let partAttr := ber.Encode ber.ClassUniversal ber.TypeConstructed ber.TagSequence ber.Nil "PartialAttribute" in
  let partAttr := ber.AppendChild partAttr
                    (ber.NewString ber.ClassUniversal ber.TypePrimitive ber.TagOctetString
                       (Name (Modification mod_)) "AttributeDescription") in
  let valuesSet := ber.Encode ber.ClassUniversal ber.TypeConstructed ber.TagSet ber.Nil "Attribute Value Set" in
  let valuesSet := fold_left appendValue (Values (Modification mod_)) valuesSet in
  let partAttr := ber.AppendChild partAttr valuesSet in
  ber.AppendChild modification partAttr.

(** The body of the outer loop of [encodeModifyRequest]: build the
    change record, append it to the changes. *)
Definition appendMod (seqOfChanges : ber.Packet) (mod_ : Mod) : ber.Packet :=
  let modification := modificationOf mod_ in
  ber.AppendChild seqOfChanges modification.

Definition encodeModifyRequest (req : ModifyRequest) : ber.Packet :=
  let modpacket := ber.Encode ber.ClassApplication ber.TypeConstructed ApplicationModifyRequest ber.Nil
                     (index ApplicationMap ApplicationModifyRequest) in
  let modpacket := ber.AppendChild modpacket
                     (ber.NewString ber.ClassUniversal ber.TypePrimitive ber.TagOctetString (DN req) "LDAP DN") in
  let seqOfChanges := ber.Encode ber.ClassUniversal ber.TypeConstructed ber.TagSequence ber.Nil "Changes" in
  let seqOfChanges := fold_left appendMod (Mods req) seqOfChanges in
  ber.AppendChild modpacket seqOfChanges.

Definition Bytes (req : ModifyRequest) : list byte :=
  ber.Bytes (encodeModifyRequest req).

(** The request as [Modify] wraps it: message id, then the operation. *)
Definition requestPacket (messageID : Z) (modReq : ModifyRequest) : ber.Packet :=
  let packet := ber.Encode ber.ClassUniversal ber.TypeConstructed ber.TagSequence ber.Nil "LDAP Request" in
  let packet := ber.AppendChild packet
                  (ber.NewInteger ber.ClassUniversal ber.TypePrimitive ber.TagInteger messageID "MessageID") in
  ber.AppendChild packet (encodeModifyRequest modReq).

(** The debug block between the receive and the interpretation of the
    reply: the packet to go on with, or the error to return. *)
Definition describeReply (l : Conn) (packet : ber.Packet) : Run (ber.Packet + Error) :=
  if Debug l then
    match addLDAPDescriptions packet with
    | (_, Some err) => ret (inr (NewError ErrorDebugging err))
    | (packet, None) => (emit (PrintPacket packet) ;; ret (inl packet))%run
    end
  else ret (inl packet).

Definition Modify (l : Conn) (modReq : ModifyRequest) : Run (option Error) :=
  (let messageID := Conn_nextMessageID l in
   let packet := requestPacket messageID modReq in
   when (Debug l) (emit (PrintPacket packet)) ;;
   r <- do_sendMessage l packet ;;
   match r with
   | (_, Some err) => ret (Some err)
   | (None, None) => ret (Some (NewError ErrorNetwork "Could not send message"))
   | (Some channel, None) =>
       defer (FinishMessage messageID)
         (when (Debug l) (emit (Printf ("%d: waiting for response" +:+ LF) messageID)) ;;
          let packet := channel in
          when (Debug l) (emit (Printf ("%d: got response %p" +:+ LF) messageID)) ;;
          match packet with
          | None => ret (Some (NewError ErrorNetwork "Could not retrieve message"))
          | Some packet =>
              d <- describeReply l packet ;;
              match d with
              | inr err => ret (Some err)
              | inl packet =>
                  let '(result_code, result_description) := getLDAPResultCode packet in
                  if negb (result_code =? 0)
                  then ret (Some (NewError result_code result_description))
                  else (when (Debug l) (emit (Printf ("%d: returning" +:+ LF) messageID)) ;;
                        ret None)
              end
          end)
   end)%run.

End WithPackage.

Definition NewModifyRequest (dn : string) : ModifyRequest :=
  {| DN := dn; Mods := [] |}.

(** Basic LDIF dump. *)
Definition DumpMod (mod_ : Mod) : string :=
  let dump := "changetype: modify" +:+ LF in
  let dump := dump +:+ (index ModMap (ModOperation mod_) +:+ ": " +:+ Name (Modification mod_) +:+ LF) in
  let dump := fold_left (fun dump val => dump +:+ (Name (Modification mod_) +:+ ": " +:+ val +:+ LF))
                (Values (Modification mod_)) dump in
  dump +:+ ("-" +:+ LF).

Definition DumpModRequest (req : ModifyRequest) : string :=
  let dump := "dn: " +:+ DN req +:+ LF in
  fold_left (fun dump mod_ => dump +:+ DumpMod mod_) (Mods req) dump.

Definition NewMod (modType : Z) (attr : string) (values : list string) : Mod :=
  let partEntryAttr := {| Name := attr; Values := values |} in
  {| ModOperation := modType; Modification := partEntryAttr |}.

(** [req.Mods = append(req.Mods, *mod_)]: the request after the call. *)
Definition AddMod (req : ModifyRequest) (mod_ : Mod) : ModifyRequest :=
  {| DN := DN req; Mods := Mods req ++ [mod_] |}.

Definition AddMods (req : ModifyRequest) (mods : list Mod) : ModifyRequest :=
  {| DN := DN req; Mods := Mods req ++ mods |}.

End modify.

(** ** Reading a Modify envelope back *)

(** The reading side of the wire format of section 6, used to state what
    the encoder produced: a Modify envelope is the distinguished name
    and a sequence of changes, a change is an enumerated operation and
    an attribute, an attribute is a name and a set of values. *)
Module reader.

Definition octetString (p : ber.Packet) : option string :=
  match ber.Value p with
  | ber.Str s => if ber.Tag p =? ber.TagOctetString then Some s else None
  | _ => None
  end.

Definition readAttribute (partAttr : ber.Packet) : option modify.EntryAttribute :=
  match ber.Children partAttr with
  | [name; valuesSet] =>
      if ber.Tag valuesSet =? ber.TagSet then
        name ← octetString name;
        values ← mapM octetString (ber.Children valuesSet);
        Some {| modify.Name := name; modify.Values := values |}
      else None
  | _ => None
  end.

Definition readChange (change : ber.Packet) : option modify.Mod :=
  match ber.Children change with
  | [op; partAttr] =>
      match ber.Value op with
      | ber.Uint n =>
          if ber.Tag op =? ber.TagEnumerated then
            attr ← readAttribute partAttr;
            Some {| modify.ModOperation := n; modify.Modification := attr |}
          else None
      | _ => None
      end
  | _ => None
  end.

(** The change records of a Modify envelope, in wire order. *)
Definition changeRecords (p : ber.Packet) : list ber.Packet :=
  match ber.Children p with
  | [_; seqOfChanges] => ber.Children seqOfChanges
  | _ => []
  end.

Definition readModifyRequest (p : ber.Packet) : option modify.ModifyRequest :=
  match ber.Children p with
  | [dn; _] =>
      if (ber.ClassType p =? ber.ClassApplication) && (ber.Tag p =? ApplicationModifyRequest) then
        dn ← octetString dn;
        mods ← mapM readChange (changeRecords p);
        Some {| modify.DN := dn; modify.Mods := mods |}
      else None
  | _ => None
  end.

End reader.

(** ** The Compare file *)

Module compare.

Section WithPackage.
Context {Control : Type} {pkg : Package Control}.

Record CompareRequest : Type := mkCompareRequest {
  DN : string;
  Name : string;
  Value : string;
  Controls : list Control
}.

Definition encodeCompareRequest (req : CompareRequest) : fallible ber.Packet :=
  let p := ber.Encode ber.ClassApplication ber.TypeConstructed ApplicationCompareRequest ber.Nil
             (ApplicationString ApplicationCompareRequest) in
  let p := ber.AppendChild p
             (ber.NewString ber.ClassUniversal ber.TypePrimitive ber.TagOctetString (DN req) "LDAP DN") in
  match encodeItem [Name req; "="%string; Value req] with
  | Fail err => Fail err
  | Ok ava => Ok (ber.AppendChild p ava)
  end.

(** Modelled from the spec: [Connection.sendReqRespPacket] is declared
    outside the sources.  Section 4.5: submit (a failed write is a
    network error), await the reply (a connection closed first, or an
    absent reply, is a network error), release the id, interpret; a
    nonzero code comes back as a structured error carrying the code
    and the description.  This is the sequence [Conn.Modify] has
    inline, without its debug output. *)
Definition sendReqRespPacket (l : Connection) (messageID : Z) (packet : ber.Packet)
  : Run (option error) :=
  (r <- do_sendMessage l packet ;;
   match r with
   | (_, Some err) => ret (Some (LDAPError err))
   | (None, None) => ret (Some (newError ErrorNetwork "Could not send message"))
   | (Some channel, None) =>
       defer (FinishMessage messageID)
         match channel with
         | None => ret (Some (newError ErrorNetwork "Could not retrieve message"))
         | Some packet =>
             let '(result_code, result_description) := getLDAPResultCode packet in
             if negb (result_code =? 0)
             then ret (Some (newError result_code result_description))
             else ret None
         end
   end)%run.

Definition Compare (l : Connection) (req : CompareRequest) : Run (bool * option error) :=
  (let '(messageID, ok) := Connection_nextMessageID l in
   if negb ok then
     ret (false, Some (newError ErrorClosing "MessageID channel is closed."))
   else
     match encodeCompareRequest req with
     | Fail err => ret (false, Some err)
     | Ok encodedCompare =>
         match requestBuildPacket messageID encodedCompare (Controls req) with
         | Fail err => ret (false, Some err)
         | Ok packet =>
             err <- sendReqRespPacket l messageID packet ;;
             match err with
             | Some (LDAPError lerr) => ret (ResultCode lerr =? ResultCompareTrue, None)
             | _ => ret (false, err)
             end
         end
     end)%run.

Definition NewCompareRequest (dn name value : string) : CompareRequest :=
  {| DN := dn; Name := name; Value := value; Controls := [] |}.

End WithPackage.

Arguments CompareRequest Control : clear implicits.

(** Modelled from the spec: [encodeItem] is declared outside the
    sources.  Section 6: the assertion of Compare is (attribute-name:
    octet-string, asserted-value: octet-string); the ASN.1 comment of the
    file: AttributeValueAssertion ::= SEQUENCE of the description and the
    value.  Section 4.2: encoding fails only on input the codec rejects,
    here anything but a name, an operator and a value. *)
Definition encodeItem_model (parts : list string) : fallible ber.Packet :=
  match parts with
  | [name; _; value] =>
      let ava := ber.Encode ber.ClassUniversal ber.TypeConstructed ber.TagSequence ber.Nil
                   "AttributeValueAssertion" in
      let ava := ber.AppendChild ava
                   (ber.NewString ber.ClassUniversal ber.TypePrimitive ber.TagOctetString name
                      "AttributeDescription") in
      Ok (ber.AppendChild ava
            (ber.NewString ber.ClassUniversal ber.TypePrimitive ber.TagOctetString value
               "AssertionValue"))
  | _ => Fail (OtherError "malformed item")
  end.

End compare.

(** ** A package instance and connections to run the code on *)

Module sample.

(** Modelled from the spec: a reply interpreter to run the code with.
    Section 3: a reply carries the echoed correlation identifier, a
    result tag, a numeric result code and a diagnostic string; the
    result is the second child of the envelope, code first, diagnostic
    text third.  Anything else reads as a network error. *)
Definition interpret (p : ber.Packet) : Z * string :=
  match ber.Children p with
  | _ :: response :: _ =>
      match ber.Children response with
      | [code; _; text] =>
          match ber.Value code, ber.Value text with
          | ber.Uint c, ber.Str d => (c, d)
          | _, _ => (200, "Invalid packet format"%string)
          end
      | _ => (200, "Invalid packet format"%string)
      end
  | _ => (200, "Invalid packet format"%string)
  end.

(** Modelled from the spec: section 6, every request is wrapped in an
    outer sequence of message id and operation envelope. *)
Definition buildPacket (messageID : Z) (opPacket : ber.Packet) (controls : list unit)
  : fallible ber.Packet :=
  let p := ber.Encode ber.ClassUniversal ber.TypeConstructed ber.TagSequence ber.Nil "LDAP Request" in
  let p := ber.AppendChild p
             (ber.NewInteger ber.ClassUniversal ber.TypePrimitive ber.TagInteger messageID "MessageID") in
  Ok (ber.AppendChild p opPacket).

(** Annotation of a reply: message id and response are annotated, and
    so are the controls after them when each control has its type
    element; a control without any element cannot be processed. *)
Definition describe (p : ber.Packet) : ber.Packet * option string :=
  match ber.Children p with
  | [_; _] => (p, None)
  | [_; _; controls] =>
      if forallb (fun control => negb (Nat.eqb (length (ber.Children control)) 0))
           (ber.Children controls)
      then (p, None)
      else (p, Some "ldap: cannot process packet to add descriptions"%string)
  | _ => (p, Some "ldap: cannot process packet to add descriptions"%string)
  end.

Definition package : Package unit := {|
  ErrorNetwork := 200;
  ErrorDebugging := 203;
  ErrorClosing := 210;
  ApplicationMap := {[ 6 := "Modify Request"%string; 14 := "Compare Request"%string ]};
  ApplicationString := fun a => index {[ 6 := "Modify Request"%string; 14 := "Compare Request"%string ]} a;
  getLDAPResultCode := interpret;
  addLDAPDescriptions := describe;
  encodeItem := compare.encodeItem_model;
  requestBuildPacket := buildPacket
|}.

(** A package that names no description at all. *)
Definition bare : Package unit := {|
  ErrorNetwork := 200;
  ErrorDebugging := 203;
  ErrorClosing := 210;
  ApplicationMap := ∅;
  ApplicationString := fun _ => EmptyString;
  getLDAPResultCode := interpret;
  addLDAPDescriptions := describe;
  encodeItem := compare.encodeItem_model;
  requestBuildPacket := buildPacket
|}.

(** A reply envelope: message id, then a response with result code,
    matched name and diagnostic text. *)
Definition reply (messageID tag code : Z) (text : string) : ber.Packet :=
  let response := ber.Encode ber.ClassApplication ber.TypeConstructed tag ber.Nil "Response" in
  let response := ber.AppendChild response
                    (ber.NewInteger ber.ClassUniversal ber.TypePrimitive ber.TagEnumerated code "resultCode") in
  let response := ber.AppendChild response
                    (ber.NewString ber.ClassUniversal ber.TypePrimitive ber.TagOctetString EmptyString "matchedDN") in
  let response := ber.AppendChild response
                    (ber.NewString ber.ClassUniversal ber.TypePrimitive ber.TagOctetString text "diagnosticMessage") in
  let p := ber.Encode ber.ClassUniversal ber.TypeConstructed ber.TagSequence ber.Nil "LDAP Response" in
  let p := ber.AppendChild p
             (ber.NewInteger ber.ClassUniversal ber.TypePrimitive ber.TagInteger messageID "MessageID") in
  ber.AppendChild p response.

(** The same reply followed by controls, one of them without any
    element. *)
Definition replyWithControls (messageID tag code : Z) (text : string) : ber.Packet :=
  let controls := ber.Encode 128 ber.TypeConstructed 0 ber.Nil "Controls" in
  let controls := ber.AppendChild controls
                    (ber.Encode ber.ClassUniversal ber.TypeConstructed ber.TagSequence ber.Nil "Control") in
  ber.AppendChild (reply messageID tag code text) controls.

(** An open connection whose peer answers every request with [answer]. *)
Definition answering (debug : bool) (messageID : Z) (answer : ber.Packet) : Conn :=
  {| Debug := debug;
     allocator := (messageID, true);
     sendMessage := fun _ => (Some (Some answer), None) |}.

(** A connection that has begun closing: the allocator reports it, and
    submit fails with a network error. *)
Definition closing : Conn :=
  {| Debug := false;
     allocator := (0, false);
     sendMessage := fun _ => (None, Some (NewError 200 "Connection closed")) |}.

Definition cn_mod : modify.Mod :=
  modify.NewMod modify.ModAdd "cn" ["aaa"; "bbb"; "ccc"]%string.

Definition cn_request : modify.ModifyRequest :=
  modify.AddMod (modify.NewModifyRequest "cn=test,ou=People,dc=example,dc=com") cn_mod.

Definition cn_compare : compare.CompareRequest unit :=
  compare.NewCompareRequest "cn=test,ou=People,dc=example,dc=com" "cn" "aaa".

End sample.

(** ** Observations on a run and on a packet *)

(** The message ids given back by [finishMessage], oldest first. *)
Definition released (t : list Event) : list Z :=
  omap (fun e => match e with FinishMessage messageID => Some messageID | _ => None end) t.

(** The debug output of a run: what [ber.PrintPacket] and [fmt.Printf]
    wrote. *)
Definition printed (t : list Event) : list Event :=
  omap (fun e => match e with
                 | PrintPacket _ | Printf _ _ => Some e
                 | _ => None
                 end) t.

Module wire.

(** A packet whose buffers agree with its tree: the buffer of every
    constructed node is the encodings of its children, one after the
    other.  [AppendChild] copies the bytes of the child at the time of the
    call, so this holds when every child is complete before it is
    appended. *)
Fixpoint consistent (p : ber.Packet) : Prop :=
  match p with
  | ber.mkPacket _ tagType _ _ data children _ =>
      (tagType = ber.TypeConstructed -> data = concat (map ber.Bytes children))
      /\ (fix all (ps : list ber.Packet) : Prop :=
            match ps with
            | [] => True
            | q :: qs => consistent q /\ all qs
            end) children
  end.

End wire.

Module failing.

(** The sample package with an item encoder that rejects its input. *)
Definition item : Package unit := {|
  ErrorNetwork := 200;
  ErrorDebugging := 203;
  ErrorClosing := 210;
  ApplicationMap := ∅;
  ApplicationString := fun _ => EmptyString;
  getLDAPResultCode := sample.interpret;
  addLDAPDescriptions := sample.describe;
  encodeItem := fun _ => Fail (OtherError "cannot encode item");
  requestBuildPacket := sample.buildPacket
|}.

(** The sample package with a request builder that rejects the controls. *)
Definition build : Package unit := {|
  ErrorNetwork := 200;
  ErrorDebugging := 203;
  ErrorClosing := 210;
  ApplicationMap := ∅;
  ApplicationString := fun _ => EmptyString;
  getLDAPResultCode := sample.interpret;
  addLDAPDescriptions := sample.describe;
  encodeItem := compare.encodeItem_model;
  requestBuildPacket := fun _ _ _ => Fail (OtherError "cannot encode controls")
|}.

(** An open connection on which submit yields neither a reply slot nor an
    error. *)
Definition unsent : Conn :=
  {| Debug := false;
     allocator := (7, true);
     sendMessage := fun _ => (None, None) |}.

(** An open connection that closes before the reply arrives: the reply
    slot delivers the nil packet. *)
Definition dropped : Conn :=
  {| Debug := true;
     allocator := (7, true);
     sendMessage := fun _ => (Some None, None) |}.

End failing.

(** * Properties *)

(** ** Strings and the codec *)

Lemma append_assoc (a b c : string) : (a +:+ b) +:+ c = a +:+ (b +:+ c).
Proof.
  induction a as [|ch a IH]; [reflexivity|].
  change (String ch ((a +:+ b) +:+ c) = String ch (a +:+ (b +:+ c))).
  now rewrite IH.
Qed.

Lemma append_empty_r (a : string) : a +:+ EmptyString = a.
Proof.
  induction a as [|ch a IH]; [reflexivity|].
  change (String ch (a +:+ EmptyString) = String ch a).
  now rewrite IH.
Qed.

(** A loop that appends one piece per element appends the pieces in
    order. *)
Lemma fold_left_append {A} (f : A -> string) (xs : list A) (acc : string) :
  fold_left (fun dump x => dump +:+ f x) xs acc = acc +:+ joined (map f xs).
Proof.
  revert acc. induction xs as [|x xs IH]; intros acc; simpl.
  - now rewrite append_empty_r.
  - now rewrite IH, append_assoc.
Qed.

Module ber_facts.

(** A loop of [AppendChild] adds the children in the order of the loop
    and keeps those already there. *)
Lemma Children_fold_AppendChild {A} (f : A -> ber.Packet) (xs : list A) (p : ber.Packet) :
  ber.Children (fold_left (fun p x => ber.AppendChild p (f x)) xs p)
  = ber.Children p ++ map f xs.
Proof.
  revert p. induction xs as [|x xs IH]; intros p; simpl.
  - now rewrite app_nil_r.
  - rewrite IH. simpl. now rewrite <- app_assoc.
Qed.

Lemma Tag_fold_AppendChild {A} (f : A -> ber.Packet) (xs : list A) (p : ber.Packet) :
  ber.Tag (fold_left (fun p x => ber.AppendChild p (f x)) xs p) = ber.Tag p.
Proof. revert p. induction xs as [|x xs IH]; intros p; simpl; [reflexivity | now rewrite IH]. Qed.


End ber_facts.

(** ** The Modify encoder *)

Module modify_facts.
Import modify.

Lemma Children_valuesSet (vals : list string) (valuesSet : ber.Packet) :
  ber.Children (fold_left appendValue vals valuesSet)
  = ber.Children valuesSet
    ++ map (fun val => ber.NewString ber.ClassUniversal ber.TypePrimitive ber.TagOctetString val
                         "AttributeValue") vals.
Proof. apply (ber_facts.Children_fold_AppendChild _ vals valuesSet). Qed.

Lemma Tag_valuesSet (vals : list string) (valuesSet : ber.Packet) :
  ber.Tag (fold_left appendValue vals valuesSet) = ber.Tag valuesSet.
Proof. apply (ber_facts.Tag_fold_AppendChild _ vals valuesSet). Qed.

Lemma Children_seqOfChanges (mods : list Mod) (seqOfChanges : ber.Packet) :
  ber.Children (fold_left appendMod mods seqOfChanges)
  = ber.Children seqOfChanges ++ map modificationOf mods.
Proof. apply (ber_facts.Children_fold_AppendChild modificationOf mods seqOfChanges). Qed.

Lemma read_values (vals : list string) :
  mapM reader.octetString
    (map (fun val => ber.NewString ber.ClassUniversal ber.TypePrimitive ber.TagOctetString val
                       "AttributeValue") vals)
  = Some vals.
Proof.
  apply mapM_Some_2. induction vals as [|v vals IH]; simpl; constructor; auto.
Qed.

(** The shape of a change record: operation, then name and value set. *)
Lemma Children_modificationOf (m : Mod) :
  ber.Children (modificationOf m)
  = [ ber.NewInteger ber.ClassUniversal ber.TypePrimitive ber.TagEnumerated (ModOperation m)
        ("Modify Op (" +:+ index ModMap (ModOperation m) +:+ ")");
      ber.AppendChild
        (ber.AppendChild
           (ber.Encode ber.ClassUniversal ber.TypeConstructed ber.TagSequence ber.Nil "PartialAttribute")
           (ber.NewString ber.ClassUniversal ber.TypePrimitive ber.TagOctetString
              (Name (Modification m)) "AttributeDescription"))
        (fold_left appendValue (Values (Modification m))
           (ber.Encode ber.ClassUniversal ber.TypeConstructed ber.TagSet ber.Nil "Attribute Value Set")) ].
Proof. reflexivity. Qed.

Lemma readChange_modificationOf (m : Mod) :
  reader.readChange (modificationOf m) = Some m.
Proof.
  destruct m as [op [name vals]].
  unfold reader.readChange. rewrite Children_modificationOf. simpl.
  unfold reader.readAttribute. simpl.
  rewrite Tag_valuesSet, Children_valuesSet. simpl.
  now rewrite read_values.
Qed.

Lemma read_changes (mods : list Mod) :
  mapM reader.readChange (map modificationOf mods) = Some mods.
Proof.
  apply mapM_Some_2. induction mods as [|m mods IH]; simpl; constructor; auto.
  apply readChange_modificationOf.
Qed.

Lemma index_ModMap_other (op : Z) :
  op <> ModAdd -> op <> ModDelete -> op <> ModReplace -> index ModMap op = EmptyString.
Proof.
  intros H0 H1 H2. unfold index, ModMap.
  rewrite !lookup_insert_ne by congruence.
  now rewrite lookup_singleton_ne by congruence.
Qed.

Section WithPackage.
Context {Control : Type} {pkg : Package Control}.

Lemma changeRecords_encodeModifyRequest (req : ModifyRequest) :
  reader.changeRecords (encodeModifyRequest req) = map modificationOf (Mods req).
Proof.
  unfold reader.changeRecords, encodeModifyRequest. simpl.
  now rewrite Children_seqOfChanges.
Qed.

Lemma changeRecord_lookup (req : ModifyRequest) (i : nat) (m : Mod) :
  Mods req !! i = Some m ->
  reader.changeRecords (encodeModifyRequest req) !! i = Some (modificationOf m).
Proof.
  intros Hi. rewrite changeRecords_encodeModifyRequest.
  change (map modificationOf (Mods req)) with (modificationOf <$> Mods req).
  now rewrite list_lookup_fmap, Hi.
Qed.

End WithPackage.

End modify_facts.

Section ModifyEncoder.
Import modify.
Context {Control : Type} {pkg : Package Control}.

(** C4. The change records of the envelope [encodeModifyRequest]
    produces are the change records of the Mods, one per Mod and in the
    order of the input slice; read back in wire order they give the
    input Mods, each with its values in their input order, and the
    whole envelope reads back as the request. *)
Theorem encodeModifyRequest_preserves_order (req : ModifyRequest) :
  reader.changeRecords (encodeModifyRequest req) = map modificationOf (Mods req)
  /\ mapM reader.readChange (reader.changeRecords (encodeModifyRequest req)) = Some (Mods req)
  /\ reader.readModifyRequest (encodeModifyRequest req) = Some req.
Proof.
  pose proof (modify_facts.changeRecords_encodeModifyRequest req) as Hrec.
  split; [exact Hrec|]. split.
  - rewrite Hrec. apply modify_facts.read_changes.
  - unfold reader.readModifyRequest.
    rewrite Hrec, modify_facts.read_changes.
    destruct req as [dn mods]. reflexivity.
Qed.

(** C5. For the request on cn=test,ou=People,dc=example,dc=com with the
    single Mod (Add, "cn", ["aaa"; "bbb"; "ccc"]), the envelope has
    exactly one change record, with operation 0, attribute name "cn" and
    the values "aaa", "bbb", "ccc" in that order, and the dump is the
    seven lines dn, changetype, add, the three values and the dash,
    each ended by a line feed. *)
Theorem cn_scenario :
  let req := {| DN := "cn=test,ou=People,dc=example,dc=com";
                Mods := [ {| ModOperation := ModAdd;
                             Modification := {| Name := "cn"; Values := ["aaa"; "bbb"; "ccc"]%string |} |} ] |} in
  length (reader.changeRecords (encodeModifyRequest req)) = 1%nat
  /\ mapM reader.readChange (reader.changeRecords (encodeModifyRequest req))
     = Some [ {| ModOperation := 0;
                 Modification := {| Name := "cn"; Values := ["aaa"; "bbb"; "ccc"]%string |} |} ]
  /\ DumpModRequest req
     = joined (map (fun line => line +:+ LF)
                 [ "dn: cn=test,ou=People,dc=example,dc=com";
                   "changetype: modify";
                   "add: cn";
                   "cn: aaa";
                   "cn: bbb";
                   "cn: ccc";
                   "-" ]%string).
Proof.
  intros req. split; [reflexivity|]. split; [|vm_compute; reflexivity].
  rewrite modify_facts.changeRecords_encodeModifyRequest.
  apply modify_facts.read_changes.
Qed.

(** C6. A Mod without values still gets its attribute-value set: the
    change record at its position holds the operation and an attribute
    made of the name and a set node, and that set node is the empty
    set, with no children and the two octets 31 00 on the wire. *)
Theorem empty_values_encode_empty_set (req : ModifyRequest) (i : nat) (m : Mod) :
  Mods req !! i = Some m ->
  Values (Modification m) = [] ->
  exists change op partAttr name valuesSet,
    reader.changeRecords (encodeModifyRequest req) !! i = Some change
    /\ ber.Children change = [op; partAttr]
    /\ ber.Children partAttr = [name; valuesSet]
    /\ valuesSet = ber.Encode ber.ClassUniversal ber.TypeConstructed ber.TagSet ber.Nil "Attribute Value Set"
    /\ ber.Children valuesSet = []
    /\ ber.Bytes valuesSet = [x31; x00].
Proof.
  intros Hi Hvals.
  pose proof (modify_facts.changeRecord_lookup req i m Hi) as Hrec.
  do 5 eexists. split; [exact Hrec|].
  rewrite modify_facts.Children_modificationOf, Hvals. simpl.
  repeat split; reflexivity.
Qed.

(** C9. A Mod whose operation is none of 0, 1, 2 is dumped and encoded
    all the same: [DumpMod] writes the empty keyword, so the operation
    line is ": " and the attribute name, and [encodeModifyRequest]
    writes the operation number as it is into the enumerated node of
    the change record. *)
Theorem unknown_operation_passes_through (m : Mod) :
  ModOperation m <> 0 -> ModOperation m <> 1 -> ModOperation m <> 2 ->
  DumpMod m
  = "changetype: modify" +:+ LF
    +:+ ": " +:+ Name (Modification m) +:+ LF
    +:+ joined (map (fun val => Name (Modification m) +:+ ": " +:+ val +:+ LF)
                  (Values (Modification m)))
    +:+ "-" +:+ LF
  /\ forall (req : ModifyRequest) (i : nat),
       Mods req !! i = Some m ->
       exists change partAttr,
         reader.changeRecords (encodeModifyRequest req) !! i = Some change
         /\ ber.Children change
            = [ ber.NewInteger ber.ClassUniversal ber.TypePrimitive ber.TagEnumerated
                  (ModOperation m) "Modify Op ()";
                partAttr ]
         /\ reader.readChange change = Some m.
Proof.
  intros H0 H1 H2.
  pose proof (modify_facts.index_ModMap_other (ModOperation m) H0 H1 H2) as Hidx.
  split.
  - unfold DumpMod. rewrite Hidx, fold_left_append.
    rewrite !append_assoc. reflexivity.
  - intros req i Hi.
    exists (modificationOf m). eexists.
    split; [now apply modify_facts.changeRecord_lookup|].
    split; [|apply modify_facts.readChange_modificationOf].
    rewrite modify_facts.Children_modificationOf, Hidx. reflexivity.
Qed.

End ModifyEncoder.

(** C6, on a request that deletes all values of "mail". *)
Lemma empty_values_encode_empty_set_witness :
  exists change op partAttr name valuesSet,
    reader.changeRecords
      (modify.encodeModifyRequest (pkg := sample.package)
         {| modify.DN := "cn=test,ou=People,dc=example,dc=com";
            modify.Mods := [ modify.NewMod modify.ModDelete "mail" [] ] |}) !! 0%nat
    = Some change
    /\ ber.Children change = [op; partAttr]
    /\ ber.Children partAttr = [name; valuesSet]
    /\ valuesSet = ber.Encode ber.ClassUniversal ber.TypeConstructed ber.TagSet ber.Nil "Attribute Value Set"
    /\ ber.Children valuesSet = []
    /\ ber.Bytes valuesSet = [x31; x00].
Proof.
  apply (empty_values_encode_empty_set (pkg := sample.package)
           {| modify.DN := "cn=test,ou=People,dc=example,dc=com";
              modify.Mods := [ modify.NewMod modify.ModDelete "mail" [] ] |}
           0%nat (modify.NewMod modify.ModDelete "mail" [])); reflexivity.
Defined.

(** C9, on a Mod with operation 7. *)
Lemma unknown_operation_passes_through_witness :
  modify.DumpMod (modify.NewMod 7 "cn" ["aaa"%string])
  = joined [ "changetype: modify"; LF; ": cn"; LF; "cn: aaa"; LF; "-"; LF ]%string
  /\ exists change partAttr,
       reader.changeRecords
         (modify.encodeModifyRequest (pkg := sample.package)
            {| modify.DN := "cn=test"; modify.Mods := [ modify.NewMod 7 "cn" ["aaa"%string] ] |}) !! 0%nat
       = Some change
       /\ ber.Children change
          = [ ber.NewInteger ber.ClassUniversal ber.TypePrimitive ber.TagEnumerated 7 "Modify Op ()";
              partAttr ]
       /\ reader.readChange change = Some (modify.NewMod 7 "cn" ["aaa"%string]).
Proof.
  destruct (unknown_operation_passes_through (pkg := sample.package)
              (modify.NewMod 7 "cn" ["aaa"%string])) as [Hdump Henc]; [simpl; lia ..|].
  split.
  - rewrite Hdump. reflexivity.
  - apply (Henc {| modify.DN := "cn=test"; modify.Mods := [ modify.NewMod 7 "cn" ["aaa"%string] ] |} 0%nat).
    reflexivity.
Defined.

(** ** Building a request *)

(** C10. [AddMod] puts the given Mod at the end of the Mods and [AddMods]
    puts the given Mods there in their order; both keep the DN and the
    Mods that were there, at their positions.  [NewModifyRequest] gives a
    request with the given DN and no Mods, so a request built from it by
    one [AddMod] per Mod holds exactly those Mods, in the order of the
    calls. *)
Theorem AddMod_appends (req : modify.ModifyRequest) (m : modify.Mod) (ms : list modify.Mod) (dn : string) :
  (modify.DN (modify.AddMod req m) = modify.DN req
   /\ take (length (modify.Mods req)) (modify.Mods (modify.AddMod req m)) = modify.Mods req
   /\ drop (length (modify.Mods req)) (modify.Mods (modify.AddMod req m)) = [m])
  /\ (modify.DN (modify.AddMods req ms) = modify.DN req
      /\ take (length (modify.Mods req)) (modify.Mods (modify.AddMods req ms)) = modify.Mods req
      /\ drop (length (modify.Mods req)) (modify.Mods (modify.AddMods req ms)) = ms)
  /\ (modify.DN (modify.NewModifyRequest dn) = dn
      /\ modify.Mods (modify.NewModifyRequest dn) = []
      /\ fold_left modify.AddMod ms (modify.NewModifyRequest dn)
         = {| modify.DN := dn; modify.Mods := ms |}).
Proof.
  split; [|split].
  - simpl. now rewrite take_app_length, drop_app_length.
  - simpl. now rewrite take_app_length, drop_app_length.
  - split; [reflexivity|]. split; [reflexivity|].
    unfold modify.NewModifyRequest.
    change ms with ([] ++ ms) at 2. generalize (@nil modify.Mod) as before.
    induction ms as [|x ms IH]; intros before; simpl.
    + now rewrite app_nil_r.
    + unfold modify.AddMod at 2. simpl. rewrite IH.
      now rewrite <- app_assoc.
Qed.

(** ** Determinism of the encoders *)

(** C7. The bytes of an encoded request are a function of the request
    alone.  Two calls of [encodeModifyRequest], or of [Bytes], on the
    same request give the same bytes whatever the package tables hold at
    the time of each call; two calls of [encodeCompareRequest] on the same
    request, with the same item encoder, give the same bytes or the same
    error. *)
Theorem encoders_deterministic {Control : Type} (P1 P2 : Package Control) :
  (forall parts, encodeItem (Package := P1) parts = encodeItem (Package := P2) parts) ->
  (forall req : modify.ModifyRequest,
      ber.Bytes (modify.encodeModifyRequest (pkg := P1) req)
      = ber.Bytes (modify.encodeModifyRequest (pkg := P2) req)
      /\ modify.Bytes (pkg := P1) req = modify.Bytes (pkg := P2) req)
  /\ (forall req : compare.CompareRequest Control,
         fallible_map ber.Bytes (compare.encodeCompareRequest (pkg := P1) req)
         = fallible_map ber.Bytes (compare.encodeCompareRequest (pkg := P2) req)).
Proof.
  intros Hitem. split.
  - intros req. split; reflexivity.
  - intros req. unfold compare.encodeCompareRequest. rewrite Hitem.
    destruct (encodeItem _) as [ava|err]; reflexivity.
Qed.

(** C7, on the two sample packages, which differ in every description. *)
Lemma encoders_deterministic_witness :
  (forall req : modify.ModifyRequest,
      ber.Bytes (modify.encodeModifyRequest (pkg := sample.package) req)
      = ber.Bytes (modify.encodeModifyRequest (pkg := sample.bare) req)
      /\ modify.Bytes (pkg := sample.package) req = modify.Bytes (pkg := sample.bare) req)
  /\ (forall req : compare.CompareRequest unit,
         fallible_map ber.Bytes (compare.encodeCompareRequest (pkg := sample.package) req)
         = fallible_map ber.Bytes (compare.encodeCompareRequest (pkg := sample.bare) req)).
Proof.
  apply (encoders_deterministic sample.package sample.bare). intros parts. reflexivity.
Defined.

(** ** The Compare encoder *)

(** C8. With the item encoder of the wire format, [encodeCompareRequest]
    yields an envelope with the Compare application tag whose children
    are the distinguished name as an octet string and, after it, the
    assertion: a sequence of exactly two octet strings, the attribute
    name and the asserted value. *)
Theorem encodeCompareRequest_shape {Control : Type} {pkg : Package Control}
    (req : compare.CompareRequest Control) :
  encodeItem [compare.Name req; "="%string; compare.Value req]
  = compare.encodeItem_model [compare.Name req; "="%string; compare.Value req] ->
  exists p dn ava name value,
    compare.encodeCompareRequest req = Ok p
    /\ (ber.ClassType p = ber.ClassApplication
        /\ ber.TagType p = ber.TypeConstructed
        /\ ber.Tag p = 14)
    /\ ber.Children p = [dn; ava]
    /\ dn = ber.NewString ber.ClassUniversal ber.TypePrimitive ber.TagOctetString (compare.DN req) "LDAP DN"
    /\ (ber.ClassType ava = ber.ClassUniversal
        /\ ber.TagType ava = ber.TypeConstructed
        /\ ber.Tag ava = ber.TagSequence)
    /\ ber.Children ava = [name; value]
    /\ reader.octetString name = Some (compare.Name req)
    /\ reader.octetString value = Some (compare.Value req).
Proof.
  intros Hitem. unfold compare.encodeCompareRequest. rewrite Hitem. simpl.
  do 5 eexists. split; [reflexivity|].
  simpl. repeat split; reflexivity.
Qed.

(** C8, on the comparison of cn with "aaa". *)
Lemma encodeCompareRequest_shape_witness :
  exists p dn ava name value,
    compare.encodeCompareRequest (pkg := sample.package) sample.cn_compare = Ok p
    /\ (ber.ClassType p = ber.ClassApplication
        /\ ber.TagType p = ber.TypeConstructed
        /\ ber.Tag p = 14)
    /\ ber.Children p = [dn; ava]
    /\ dn = ber.NewString ber.ClassUniversal ber.TypePrimitive ber.TagOctetString
              "cn=test,ou=People,dc=example,dc=com" "LDAP DN"
    /\ (ber.ClassType ava = ber.ClassUniversal
        /\ ber.TagType ava = ber.TypeConstructed
        /\ ber.Tag ava = ber.TagSequence)
    /\ ber.Children ava = [name; value]
    /\ reader.octetString name = Some "cn"%string
    /\ reader.octetString value = Some "aaa"%string.
Proof.
  apply (encodeCompareRequest_shape (pkg := sample.package) sample.cn_compare). reflexivity.
Defined.

(** ** The calls *)

Section Calls.
Context {Control : Type} {pkg : Package Control}.

(** Whatever the connection answers, [Modify] hands exactly one packet
    to [sendMessage]: the request under the id the allocator gave. *)
Lemma Modify_sends (l : Conn) (modReq : modify.ModifyRequest) :
  sent (events (modify.Modify l modReq))
  = [modify.requestPacket (Conn_nextMessageID l) modReq].
Proof.
  unfold modify.Modify, modify.describeReply, do_sendMessage.
  destruct (sendMessage l _) as [[[reply|]|] [err|]];
    destruct (Debug l); simpl;
    repeat match goal with
      | |- context [addLDAPDescriptions ?p] => destruct (addLDAPDescriptions p) as [? [?|]]; simpl
      | |- context [getLDAPResultCode ?p] => destruct (getLDAPResultCode p) as [code ?]; simpl
      | |- context [?c =? 0] => destruct (c =? 0); simpl
      end;
    reflexivity.
Qed.

(** An error of [sendMessage] is what [Modify] returns. *)
Lemma Modify_send_error (l : Conn) (modReq : modify.ModifyRequest) (channel : option Channel) (err : Error) :
  sendMessage l (modify.requestPacket (Conn_nextMessageID l) modReq) = (channel, Some err) ->
  returned (modify.Modify l modReq) = Some err.
Proof.
  intros Hsend. unfold modify.Modify, do_sendMessage. rewrite Hsend.
  destruct channel, (Debug l); reflexivity.
Qed.

(** C3, amended.  When the reply arrives and, on a connection in
    debug mode, its annotation succeeds, [Modify] returns nil for
    result code 0 and, for any other result code, the error that
    carries this code and the diagnostic text of the reply.  When the
    connection is in debug mode and the annotation fails, [Modify]
    returns the debugging error with the message of that failure. *)
Theorem Modify_result_mapping (l : Conn) (modReq : modify.ModifyRequest) (reply : ber.Packet) :
  sendMessage l (modify.requestPacket (Conn_nextMessageID l) modReq) = (Some (Some reply), None) ->
  (forall (annotated : ber.Packet) (code : Z) (text : string),
      (if Debug l then addLDAPDescriptions reply = (annotated, None) else annotated = reply) ->
      getLDAPResultCode annotated = (code, text) ->
      returned (modify.Modify l modReq)
      = if code =? 0 then None else Some {| ResultCode := code; Err := text |})
  /\ (forall (annotated : ber.Packet) (err : string),
         Debug l = true ->
         addLDAPDescriptions reply = (annotated, Some err) ->
         returned (modify.Modify l modReq)
         = Some {| ResultCode := ErrorDebugging; Err := err |}).
Proof.
  intros Hsend. split.
  - intros annotated code text Hdebug Hcode.
    unfold modify.Modify, modify.describeReply, do_sendMessage. rewrite Hsend.
    destruct (Debug l); simpl.
    + rewrite Hdebug. simpl. rewrite Hcode.
      destruct (code =? 0); reflexivity.
    + subst annotated. rewrite Hcode.
      destruct (code =? 0); reflexivity.
  - intros annotated err Hdebug Hfail.
    unfold modify.Modify, modify.describeReply, do_sendMessage.
    rewrite Hsend, Hdebug. simpl. rewrite Hfail. reflexivity.
Qed.

(** C2, amended.  When the allocator reports that the connection is
    closing, [Compare] returns false with the closing error and does
    nothing else: no packet is handed to the connection.  [Modify]
    takes only the id from the allocator: it hands the request to
    [sendMessage] in every case, and an error it returns then is the
    one [sendMessage] gave. *)
Theorem closing_allocator (l : Conn) :
  snd (allocator l) = false ->
  (forall req : compare.CompareRequest Control,
      compare.Compare l req
      = ((false, Some (newError ErrorClosing "MessageID channel is closed.")), []))
  /\ (forall modReq : modify.ModifyRequest,
        sent (events (modify.Modify l modReq))
        = [modify.requestPacket (fst (allocator l)) modReq]
        /\ forall channel err,
             sendMessage l (modify.requestPacket (fst (allocator l)) modReq) = (channel, Some err) ->
             returned (modify.Modify l modReq) = Some err).
Proof.
  intros Hclosed. split.
  - intros req. unfold compare.Compare, Connection_nextMessageID.
    destruct (allocator l) as [messageID ok]. simpl in Hclosed. subst ok. reflexivity.
  - intros modReq. split.
    + apply Modify_sends.
    + intros channel err. apply Modify_send_error.
Qed.

(** C1.  What [Compare] makes of a reply with a nonzero result code:
    the boolean says whether the code is 6, and the error is nil
    for every such code, 5 and 6 as well as any other. *)
Theorem Compare_result_mapping (l : Connection) (req : compare.CompareRequest Control)
    (messageID : Z) (encodedCompare packet reply : ber.Packet) (code : Z) (text : string) :
  allocator l = (messageID, true) ->
  compare.encodeCompareRequest req = Ok encodedCompare ->
  requestBuildPacket messageID encodedCompare (compare.Controls req) = Ok packet ->
  sendMessage l packet = (Some (Some reply), None) ->
  getLDAPResultCode reply = (code, text) ->
  code <> 0 ->
  returned (compare.Compare l req) = (code =? 6, None).
Proof.
  intros Halloc Henc Hbuild Hsend Hcode Hnz.
  unfold compare.Compare, Connection_nextMessageID. rewrite Halloc. simpl.
  rewrite Henc, Hbuild.
  unfold compare.sendReqRespPacket, do_sendMessage. rewrite Hsend. simpl.
  rewrite Hcode.
  destruct (code =? 0) eqn:E; [apply Z.eqb_eq in E; contradiction|].
  reflexivity.
Qed.

End Calls.

(** C3 as the specification has it fails on a connection in debug mode
    whose peer sends result code 0 in a reply that cannot be annotated:
    [Modify] returns the debugging error, not nil. *)
Lemma Modify_debug_annotation_failure :
  let reply := sample.replyWithControls 7 7 0 EmptyString in
  let l := sample.answering true 7 reply in
  sendMessage l (modify.requestPacket (pkg := sample.package) 7 sample.cn_request) = (Some (Some reply), None)
  /\ getLDAPResultCode (Package := sample.package) reply = (0, EmptyString)
  /\ returned (modify.Modify (pkg := sample.package) l sample.cn_request) <> None.
Proof.
  split; [reflexivity|]. split; [reflexivity|].
  vm_compute. discriminate.
Qed.

(** C3, on a reply with result code 32, on one with result code 0 read
    in debug mode, and on one that cannot be annotated. *)
Lemma Modify_result_mapping_witness :
  returned (modify.Modify (pkg := sample.package)
              (sample.answering false 7 (sample.reply 7 7 32 "no such object")) sample.cn_request)
  = Some {| ResultCode := 32; Err := "no such object" |}
  /\ returned (modify.Modify (pkg := sample.package)
                 (sample.answering true 7 (sample.reply 7 7 0 EmptyString)) sample.cn_request)
     = None
  /\ returned (modify.Modify (pkg := sample.package)
                 (sample.answering true 7 (sample.replyWithControls 7 7 0 EmptyString)) sample.cn_request)
     = Some {| ResultCode := 203; Err := "ldap: cannot process packet to add descriptions" |}.
Proof.
  split; [|split].
  - destruct (Modify_result_mapping (pkg := sample.package)
                (sample.answering false 7 (sample.reply 7 7 32 "no such object")) sample.cn_request
                (sample.reply 7 7 32 "no such object")) as [Hmap _]; [reflexivity|].
    apply (Hmap (sample.reply 7 7 32 "no such object") 32 "no such object"); reflexivity.
  - destruct (Modify_result_mapping (pkg := sample.package)
                (sample.answering true 7 (sample.reply 7 7 0 EmptyString)) sample.cn_request
                (sample.reply 7 7 0 EmptyString)) as [Hmap _]; [reflexivity|].
    apply (Hmap (sample.reply 7 7 0 EmptyString) 0 EmptyString); reflexivity.
  - destruct (Modify_result_mapping (pkg := sample.package)
                (sample.answering true 7 (sample.replyWithControls 7 7 0 EmptyString)) sample.cn_request
                (sample.replyWithControls 7 7 0 EmptyString)) as [_ Hfail]; [reflexivity|].
    apply (Hfail (sample.replyWithControls 7 7 0 EmptyString)); reflexivity.
Defined.

(** C2 as the specification has it fails for [Modify]: on the closing
    connection it does not stop before the request is handed over. *)
Lemma Modify_ignores_closing :
  snd (allocator sample.closing) = false
  /\ ~ (exists e : Error,
          returned (modify.Modify (pkg := sample.package) sample.closing sample.cn_request) = Some e
          /\ ResultCode e = ErrorClosing (Package := sample.package)
          /\ sent (events (modify.Modify (pkg := sample.package) sample.closing sample.cn_request)) = []).
Proof.
  split; [reflexivity|].
  intros [e [_ [_ Hsent]]]. vm_compute in Hsent. discriminate Hsent.
Qed.

(** C2, on the closing connection. *)
Lemma closing_allocator_witness :
  (forall req : compare.CompareRequest unit,
      compare.Compare (pkg := sample.package) sample.closing req
      = ((false, Some (newError 210 "MessageID channel is closed.")), []))
  /\ (forall modReq : modify.ModifyRequest,
        sent (events (modify.Modify (pkg := sample.package) sample.closing modReq))
        = [modify.requestPacket (pkg := sample.package) 0 modReq]
        /\ forall channel err,
             sendMessage sample.closing (modify.requestPacket (pkg := sample.package) 0 modReq) = (channel, Some err) ->
             returned (modify.Modify (pkg := sample.package) sample.closing modReq) = Some err).
Proof.
  apply (closing_allocator (pkg := sample.package) sample.closing). reflexivity.
Defined.

(** C1, on replies with result codes 80, 6 and 5: the code 80 is folded
    into the boolean, and no error comes back. *)
Lemma Compare_result_mapping_witness :
  returned (compare.Compare (pkg := sample.package)
              (sample.answering false 7 (sample.reply 7 15 80 "other")) sample.cn_compare)
  = (false, None)
  /\ returned (compare.Compare (pkg := sample.package)
                 (sample.answering false 7 (sample.reply 7 15 6 EmptyString)) sample.cn_compare)
     = (true, None)
  /\ returned (compare.Compare (pkg := sample.package)
                 (sample.answering false 7 (sample.reply 7 15 5 EmptyString)) sample.cn_compare)
     = (false, None).
Proof.
  split; [|split].
  - eapply (Compare_result_mapping (pkg := sample.package)
              (sample.answering false 7 (sample.reply 7 15 80 "other")) sample.cn_compare
              7 _ _ (sample.reply 7 15 80 "other") 80 "other"); try reflexivity. lia.
  - eapply (Compare_result_mapping (pkg := sample.package)
              (sample.answering false 7 (sample.reply 7 15 6 EmptyString)) sample.cn_compare
              7 _ _ (sample.reply 7 15 6 EmptyString) 6 EmptyString); try reflexivity. lia.
  - eapply (Compare_result_mapping (pkg := sample.package)
              (sample.answering false 7 (sample.reply 7 15 5 EmptyString)) sample.cn_compare
              7 _ _ (sample.reply 7 15 5 EmptyString) 5 EmptyString); try reflexivity. lia.
Defined.

(** * Further properties of the two files *)

(** ** Buffers and trees *)

Module wire_facts.

Lemma consistent_iff (p : ber.Packet) :
  wire.consistent p
  <-> (ber.TagType p = ber.TypeConstructed -> ber.Data p = concat (map ber.Bytes (ber.Children p)))
      /\ Forall wire.consistent (ber.Children p).
Proof.
  destruct p as [c t tg v d cs descr]. simpl.
  assert (Hall : (fix all (ps : list ber.Packet) : Prop :=
                    match ps with
                    | [] => True
                    | q :: qs => wire.consistent q /\ all qs
                    end) cs <-> Forall wire.consistent cs).
  { induction cs as [|q qs IH]; split; intros H.
    - constructor.
    - exact I.
    - destruct H as [Hq Hqs]. constructor; [exact Hq | now apply IH].
    - inversion H; subst. split; [assumption | now apply IH]. }
  rewrite Hall. reflexivity.
Qed.

Lemma consistent_leaf (classType tag : Z) (v : ber.value) (data : list byte) (description : string) :
  wire.consistent (ber.mkPacket classType ber.TypePrimitive tag v data [] description).
Proof. simpl. split; [discriminate | exact I]. Qed.

Lemma consistent_Encode (classType tagType tag : Z) (description : string) :
  wire.consistent (ber.Encode classType tagType tag ber.Nil description).
Proof. simpl. split; [reflexivity | exact I]. Qed.

Lemma consistent_AppendChild (p child : ber.Packet) :
  wire.consistent p -> wire.consistent child -> wire.consistent (ber.AppendChild p child).
Proof.
  rewrite !consistent_iff. intros [Hdata Hall] Hchild. simpl. split.
  - intros Hconstructed. rewrite (Hdata Hconstructed).
    rewrite map_app, concat_app. simpl. now rewrite app_nil_r.
  - apply Forall_app. split; [exact Hall|]. constructor; [|constructor].
    now apply consistent_iff.
Qed.



End wire_facts.

Module modify_facts2.
Import modify.

Section WithPackage.
Context {Control : Type} {pkg : Package Control}.

Lemma readModifyRequest_encodeModifyRequest (req : ModifyRequest) :
  reader.readModifyRequest (encodeModifyRequest req) = Some req.
Proof.
  unfold reader.readModifyRequest.
  rewrite modify_facts.changeRecords_encodeModifyRequest, modify_facts.read_changes.
  destruct req as [dn mods]. reflexivity.
Qed.


End WithPackage.

End modify_facts2.

(** ** The Modify encoder, continued *)

Section ModifyEncoderMore.
Import modify.
Context {Control : Type} {pkg : Package Control}.


(** X2. A request without Mods still carries its sequence of changes:
    the envelope has the distinguished name and an empty sequence, the
    two octets 30 00, and reads back as the request without Mods. *)
Theorem encodeModifyRequest_no_mods (req : ModifyRequest) :
  Mods req = [] ->
  exists seqOfChanges,
    ber.Children (encodeModifyRequest req)
    = [ ber.NewString ber.ClassUniversal ber.TypePrimitive ber.TagOctetString (DN req) "LDAP DN";
        seqOfChanges ]
    /\ ber.Children seqOfChanges = []
    /\ ber.Bytes seqOfChanges = [x30; x00]
    /\ reader.readModifyRequest (encodeModifyRequest req) = Some {| DN := DN req; Mods := [] |}.
Proof.
  intros Hmods. unfold encodeModifyRequest. rewrite Hmods. simpl.
  eexists. split; [reflexivity|]. repeat split; reflexivity.
Qed.

(** X3. Adding Mods to a request adds their change records at the end of
    the encoded changes and leaves the records of the earlier Mods, and
    the distinguished name, as they were. *)
Theorem encodeModifyRequest_AddMod (req : ModifyRequest) (m : Mod) (ms : list Mod) :
  reader.changeRecords (encodeModifyRequest (AddMod req m))
  = reader.changeRecords (encodeModifyRequest req) ++ [modificationOf m]
  /\ reader.changeRecords (encodeModifyRequest (AddMods req ms))
     = reader.changeRecords (encodeModifyRequest req) ++ map modificationOf ms
  /\ ber.Children (encodeModifyRequest (AddMod req m)) !! 0%nat
     = ber.Children (encodeModifyRequest req) !! 0%nat
  /\ ber.Children (encodeModifyRequest (AddMods req ms)) !! 0%nat
     = ber.Children (encodeModifyRequest req) !! 0%nat.
Proof.
  rewrite !modify_facts.changeRecords_encodeModifyRequest. simpl.
  rewrite !map_app. repeat split; reflexivity.
Qed.

End ModifyEncoderMore.

(** X2, on the fresh request for cn=test. *)
Lemma encodeModifyRequest_no_mods_witness :
  exists seqOfChanges,
    ber.Children (modify.encodeModifyRequest (pkg := sample.package) (modify.NewModifyRequest "cn=test"))
    = [ ber.NewString ber.ClassUniversal ber.TypePrimitive ber.TagOctetString "cn=test" "LDAP DN";
        seqOfChanges ]
    /\ ber.Children seqOfChanges = []
    /\ ber.Bytes seqOfChanges = [x30; x00]
    /\ reader.readModifyRequest
         (modify.encodeModifyRequest (pkg := sample.package) (modify.NewModifyRequest "cn=test"))
       = Some {| modify.DN := "cn=test"; modify.Mods := [] |}.
Proof.
  apply (encodeModifyRequest_no_mods (pkg := sample.package) (modify.NewModifyRequest "cn=test")).
  reflexivity.
Defined.

(** X4. Requests with the same envelope are the same request, whatever
    the package tables held when each was encoded: the encoder loses
    nothing of the distinguished name, the operations, the attribute
    names and the values. *)
Theorem encodeModifyRequest_injective {Control : Type} (P1 P2 : Package Control)
    (req1 req2 : modify.ModifyRequest) :
  modify.encodeModifyRequest (pkg := P1) req1 = modify.encodeModifyRequest (pkg := P2) req2 ->
  req1 = req2.
Proof.
  intros Heq.
  pose proof (modify_facts2.readModifyRequest_encodeModifyRequest (pkg := P1) req1) as H1.
  pose proof (modify_facts2.readModifyRequest_encodeModifyRequest (pkg := P2) req2) as H2.
  rewrite Heq in H1. congruence.
Qed.

(** X4, on the request for cn built in two ways. *)
Lemma encodeModifyRequest_injective_witness :
  modify.AddMods (modify.NewModifyRequest "cn=test,ou=People,dc=example,dc=com") [sample.cn_mod]
  = sample.cn_request.
Proof.
  apply (encodeModifyRequest_injective sample.package sample.package). reflexivity.
Defined.

(** ** The LDIF dump, continued *)

Lemma joined_app (xs ys : list string) : joined (xs ++ ys) = joined xs +:+ joined ys.
Proof.
  induction xs as [|x xs IH]; simpl; [reflexivity|].
  now rewrite IH, append_assoc.
Qed.

(** X5. The dump of a request is its dn line followed by the blocks of
    its Mods in the order of the Mods; a request without Mods dumps as
    the dn line alone. *)
Theorem DumpModRequest_blocks (req : modify.ModifyRequest) (dn : string) :
  modify.DumpModRequest req
  = "dn: " +:+ modify.DN req +:+ LF +:+ joined (map modify.DumpMod (modify.Mods req))
  /\ modify.DumpModRequest (modify.NewModifyRequest dn) = "dn: " +:+ dn +:+ LF.
Proof.
  split.
  - unfold modify.DumpModRequest. rewrite fold_left_append.
    now rewrite !append_assoc.
  - unfold modify.DumpModRequest. simpl. reflexivity.
Qed.

(** X6. Adding Mods to a request adds their blocks at the end of its
    dump: the dump after [AddMod] is the dump before followed by the
    block of the Mod, and after [AddMods] it is followed by the blocks
    of the Mods in their order. *)
Theorem DumpModRequest_AddMod (req : modify.ModifyRequest) (m : modify.Mod) (ms : list modify.Mod) :
  modify.DumpModRequest (modify.AddMod req m)
  = modify.DumpModRequest req +:+ modify.DumpMod m
  /\ modify.DumpModRequest (modify.AddMods req ms)
     = modify.DumpModRequest req +:+ joined (map modify.DumpMod ms).
Proof.
  unfold modify.DumpModRequest. simpl. rewrite !fold_left_app. simpl.
  split; [reflexivity|].
  now rewrite (fold_left_append modify.DumpMod ms).
Qed.

(** X7. The block of a Mod with operation 0, 1 or 2 opens with the
    changetype line and the line of its keyword, add, delete or replace,
    with the attribute name; then comes one line per value, in the order
    of the values, and the dash line.  Without values the block is the
    three lines changetype, keyword and dash. *)
Theorem DumpMod_known_operations (attr : string) (values : list string) :
  let block (keyword : string) :=
    "changetype: modify" +:+ LF
    +:+ keyword +:+ ": " +:+ attr +:+ LF
    +:+ joined (map (fun val => attr +:+ ": " +:+ val +:+ LF) values)
    +:+ "-" +:+ LF in
  modify.DumpMod (modify.NewMod modify.ModAdd attr values) = block "add"%string
  /\ modify.DumpMod (modify.NewMod modify.ModDelete attr values) = block "delete"%string
  /\ modify.DumpMod (modify.NewMod modify.ModReplace attr values) = block "replace"%string
  /\ modify.DumpMod (modify.NewMod modify.ModDelete attr [])
     = "changetype: modify" +:+ LF +:+ "delete: " +:+ attr +:+ LF +:+ "-" +:+ LF.
Proof.
  intros block. unfold block, modify.DumpMod. simpl.
  rewrite !fold_left_append.
  change (index modify.ModMap modify.ModAdd) with "add"%string.
  change (index modify.ModMap modify.ModDelete) with "delete"%string.
  change (index modify.ModMap modify.ModReplace) with "replace"%string.
  rewrite !append_assoc. repeat split; reflexivity.
Qed.

(** ** Building a request, continued *)

(** X8. [AddMods] with no Mods leaves the request as it is; two calls of
    [AddMods] amount to one call with the Mods of the first followed by
    those of the second; [AddMod] is [AddMods] with the one Mod, and a
    run of [AddMod] calls is one [AddMods] with the Mods in the order of
    the calls. *)
Theorem AddMods_compose (req : modify.ModifyRequest) (m : modify.Mod) (ms1 ms2 : list modify.Mod) :
  modify.AddMods req [] = req
  /\ modify.AddMods (modify.AddMods req ms1) ms2 = modify.AddMods req (ms1 ++ ms2)
  /\ modify.AddMod req m = modify.AddMods req [m]
  /\ fold_left modify.AddMod ms1 req = modify.AddMods req ms1.
Proof.
  split; [|split; [|split]].
  - destruct req as [dn mods]. unfold modify.AddMods. simpl. now rewrite app_nil_r.
  - unfold modify.AddMods. simpl. now rewrite app_assoc.
  - reflexivity.
  - revert req. induction ms1 as [|x ms IH]; intros req; simpl.
    + destruct req as [dn mods]. unfold modify.AddMods. simpl. now rewrite app_nil_r.
    + rewrite IH. unfold modify.AddMods, modify.AddMod. simpl. now rewrite <- app_assoc.
Qed.

(** ** The calls, continued *)

Section CallsMore.
Context {Control : Type} {pkg : Package Control}.

(** Every way through [Modify] after the request is built. *)
Ltac through_Modify l :=
  unfold modify.Modify, modify.describeReply, do_sendMessage;
  destruct (sendMessage l _) as [[[?reply|]|] [?err|]] eqn:?Hsend;
  destruct (Debug l) eqn:?Hdebug; simpl;
  repeat match goal with
    | |- context [addLDAPDescriptions ?p] =>
        destruct (addLDAPDescriptions p) as [?annotated [?failure|]] eqn:?Hdescribe; simpl
    | |- context [getLDAPResultCode ?p] =>
        destruct (getLDAPResultCode p) as [?code ?text] eqn:?Hcode; simpl
    | |- context [?c =? 0] => destruct (c =? 0) eqn:?Hzero; simpl
    end.

(** X9. [Modify] gives the message id back exactly when [sendMessage]
    handed out a reply slot without an error, and then once, as the
    last thing it does, whether the reply is missing, cannot be
    annotated, carries an error code or reports success.  When
    [sendMessage] fails or hands out no slot, the id is not given
    back. *)
Theorem Modify_releases_id (l : Conn) (modReq : modify.ModifyRequest) :
  released (events (modify.Modify l modReq))
  = match sendMessage l (modify.requestPacket (Conn_nextMessageID l) modReq) with
    | (Some _, None) => [Conn_nextMessageID l]
    | _ => []
    end
  /\ last (events (modify.Modify l modReq))
     = match sendMessage l (modify.requestPacket (Conn_nextMessageID l) modReq) with
       | (Some _, None) => Some (FinishMessage (Conn_nextMessageID l))
       | _ => Some (SendMessage (modify.requestPacket (Conn_nextMessageID l) modReq))
       end.
Proof.
  through_Modify l; split; reflexivity.
Qed.

(** X10. A nil error from [Modify] means success at the server: the
    request was handed over, a reply arrived, and the interpreter read
    result code 0 from it (from its annotated form on a connection in
    debug mode). *)
Theorem Modify_nil_means_success (l : Conn) (modReq : modify.ModifyRequest) :
  returned (modify.Modify l modReq) = None ->
  exists (reply annotated : ber.Packet) (text : string),
    sendMessage l (modify.requestPacket (Conn_nextMessageID l) modReq) = (Some (Some reply), None)
    /\ (if Debug l then addLDAPDescriptions reply = (annotated, None) else annotated = reply)
    /\ getLDAPResultCode annotated = (0, text).
Proof.
  through_Modify l; intros Hnil; try discriminate Hnil.
  - apply Z.eqb_eq in Hzero. subst code.
    exists reply, annotated, text. repeat split; assumption.
  - apply Z.eqb_eq in Hzero. subst code.
    exists reply, reply, text. repeat split; assumption.
Qed.

(** X11. When [sendMessage] yields neither a reply slot nor an error,
    [Modify] returns the network error "Could not send message"; when
    the reply slot delivers the nil packet, it returns the network error
    "Could not retrieve message". *)
Theorem Modify_network_errors (l : Conn) (modReq : modify.ModifyRequest) :
  (sendMessage l (modify.requestPacket (Conn_nextMessageID l) modReq) = (None, None) ->
   returned (modify.Modify l modReq) = Some (NewError ErrorNetwork "Could not send message"))
  /\ (sendMessage l (modify.requestPacket (Conn_nextMessageID l) modReq) = (Some None, None) ->
      returned (modify.Modify l modReq) = Some (NewError ErrorNetwork "Could not retrieve message")).
Proof.
  split; intros Hsend;
    unfold modify.Modify, do_sendMessage; rewrite Hsend; destruct (Debug l); reflexivity.
Qed.

(** X12. [Modify] writes debug output only on a connection in debug
    mode; there, the first thing it does is print the request, and the
    next is to hand that same packet to [sendMessage]. *)
Theorem Modify_debug_output (l : Conn) (modReq : modify.ModifyRequest) :
  (Debug l = false -> printed (events (modify.Modify l modReq)) = [])
  /\ (Debug l = true ->
      exists rest,
        events (modify.Modify l modReq)
        = PrintPacket (modify.requestPacket (Conn_nextMessageID l) modReq)
          :: SendMessage (modify.requestPacket (Conn_nextMessageID l) modReq)
          :: rest).
Proof.
  split; intros Hmode.
  - through_Modify l; try discriminate Hmode; reflexivity.
  - through_Modify l; try discriminate Hmode; eexists; reflexivity.
Qed.

(** X13. The one packet [Modify] hands to [sendMessage] is the sequence
    of the message id the allocator gave and the Modify envelope, and
    the envelope reads back as the request of the call. *)
Theorem Modify_sends_the_request (l : Conn) (modReq : modify.ModifyRequest) :
  exists packet envelope,
    sent (events (modify.Modify l modReq)) = [packet]
    /\ ber.Children packet
       = [ ber.NewInteger ber.ClassUniversal ber.TypePrimitive ber.TagInteger (fst (allocator l))
             "MessageID";
           envelope ]
    /\ reader.readModifyRequest envelope = Some modReq.
Proof.
  exists (modify.requestPacket (Conn_nextMessageID l) modReq), (modify.encodeModifyRequest modReq).
  split; [apply Modify_sends|]. split; [reflexivity|].
  apply modify_facts2.readModifyRequest_encodeModifyRequest.
Qed.

(** X14. On an open connection, [Compare] returns the error of a failed
    encoding, and the error of a failed request build, unchanged and
    with the answer false, and hands nothing to the connection. *)
Theorem Compare_fails_before_sending (l : Connection) (req : compare.CompareRequest Control)
    (messageID : Z) (err : error) :
  allocator l = (messageID, true) ->
  (compare.encodeCompareRequest req = Fail err ->
   compare.Compare l req = ((false, Some err), []))
  /\ (forall encodedCompare,
         compare.encodeCompareRequest req = Ok encodedCompare ->
         requestBuildPacket messageID encodedCompare (compare.Controls req) = Fail err ->
         compare.Compare l req = ((false, Some err), [])).
Proof.
  intros Halloc. split.
  - intros Henc. unfold compare.Compare, Connection_nextMessageID.
    rewrite Halloc. simpl. rewrite Henc. reflexivity.
  - intros encodedCompare Henc Hbuild. unfold compare.Compare, Connection_nextMessageID.
    rewrite Halloc. simpl. rewrite Henc, Hbuild. reflexivity.
Qed.

(** X15. [Compare] never answers true together with an error: on every
    way through the call, the error is nil or the answer is false. *)
Theorem Compare_true_has_no_error (l : Connection) (req : compare.CompareRequest Control) :
  snd (returned (compare.Compare l req)) = None
  \/ fst (returned (compare.Compare l req)) = false.
Proof.
  unfold compare.Compare, Connection_nextMessageID, compare.sendReqRespPacket, do_sendMessage.
  destruct (allocator l) as [messageID [|]]; simpl; [|right; reflexivity].
  destruct (compare.encodeCompareRequest req) as [encodedCompare|err]; [|right; reflexivity].
  destruct (requestBuildPacket _ _ _) as [packet|err]; [|right; reflexivity].
  destruct (sendMessage l packet) as [[[reply|]|] [err|]]; simpl;
    try (left; reflexivity).
  destruct (getLDAPResultCode reply) as [code text].
  destruct (code =? 0); simpl; [right|left]; reflexivity.
Qed.

End CallsMore.

(** X10, on a connection in debug mode whose peer reports success. *)
Lemma Modify_nil_means_success_witness :
  exists (reply annotated : ber.Packet) (text : string),
    sendMessage (sample.answering true 7 (sample.reply 7 7 0 EmptyString))
      (modify.requestPacket (pkg := sample.package) 7 sample.cn_request)
    = (Some (Some reply), None)
    /\ sample.describe reply = (annotated, None)
    /\ sample.interpret annotated = (0, text).
Proof.
  apply (Modify_nil_means_success (pkg := sample.package)
           (sample.answering true 7 (sample.reply 7 7 0 EmptyString)) sample.cn_request).
  reflexivity.
Defined.

(** X11, on a connection without a reply slot and on one that closes
    before the reply. *)
Lemma Modify_network_errors_witness :
  returned (modify.Modify (pkg := sample.package) failing.unsent sample.cn_request)
  = Some {| ResultCode := 200; Err := "Could not send message" |}
  /\ returned (modify.Modify (pkg := sample.package) failing.dropped sample.cn_request)
     = Some {| ResultCode := 200; Err := "Could not retrieve message" |}.
Proof.
  split.
  - apply (proj1 (Modify_network_errors (pkg := sample.package) failing.unsent sample.cn_request)).
    reflexivity.
  - apply (proj2 (Modify_network_errors (pkg := sample.package) failing.dropped sample.cn_request)).
    reflexivity.
Defined.

(** X12, on a quiet connection and on one in debug mode. *)
Lemma Modify_debug_output_witness :
  printed (events (modify.Modify (pkg := sample.package)
                     (sample.answering false 7 (sample.reply 7 7 0 EmptyString)) sample.cn_request))
  = []
  /\ exists rest,
       events (modify.Modify (pkg := sample.package) failing.dropped sample.cn_request)
       = PrintPacket (modify.requestPacket (pkg := sample.package) 7 sample.cn_request)
         :: SendMessage (modify.requestPacket (pkg := sample.package) 7 sample.cn_request)
         :: rest.
Proof.
  split.
  - apply (proj1 (Modify_debug_output (pkg := sample.package)
                    (sample.answering false 7 (sample.reply 7 7 0 EmptyString)) sample.cn_request)).
    reflexivity.
  - apply (proj2 (Modify_debug_output (pkg := sample.package) failing.dropped sample.cn_request)).
    reflexivity.
Defined.

(** X14, with an item encoder that fails and with a request builder
    that fails. *)
Lemma Compare_fails_before_sending_witness :
  compare.Compare (pkg := failing.item)
    (sample.answering false 7 (sample.reply 7 15 6 EmptyString)) sample.cn_compare
  = ((false, Some (OtherError "cannot encode item")), [])
  /\ compare.Compare (pkg := failing.build)
       (sample.answering false 7 (sample.reply 7 15 6 EmptyString)) sample.cn_compare
     = ((false, Some (OtherError "cannot encode controls")), []).
Proof.
  split.
  - apply (proj1 (Compare_fails_before_sending (pkg := failing.item)
                    (sample.answering false 7 (sample.reply 7 15 6 EmptyString)) sample.cn_compare
                    7 (OtherError "cannot encode item") eq_refl)).
    reflexivity.
  - destruct (Compare_fails_before_sending (pkg := failing.build)
                (sample.answering false 7 (sample.reply 7 15 6 EmptyString)) sample.cn_compare
                7 (OtherError "cannot encode controls") eq_refl) as [_ Hbuild].
    eapply Hbuild; reflexivity.
Defined.

(** ** The Compare encoder, continued *)

(** X16. [encodeCompareRequest] fails exactly when the item encoder
    fails on the name, the operator "=" and the value, and with the same
    error.  Otherwise the envelope has exactly two children, the
    distinguished name and the item as it was encoded; its buffer is the
    encoding of the one followed by that of the other, its first octet
    on the wire is 6E (application class, constructed, number 14), and
    its buffers agree with its tree when those of the item do. *)
Theorem encodeCompareRequest_outcome {Control : Type} {pkg : Package Control}
    (req : compare.CompareRequest Control) :
  let dn := ber.NewString ber.ClassUniversal ber.TypePrimitive ber.TagOctetString
              (compare.DN req) "LDAP DN" in
  let item := encodeItem [compare.Name req; "="%string; compare.Value req] in
  (forall err, compare.encodeCompareRequest req = Fail err <-> item = Fail err)
  /\ (forall p,
         compare.encodeCompareRequest req = Ok p ->
         exists ava,
           item = Ok ava
           /\ ber.Children p = [dn; ava]
           /\ ber.Data p = ber.Bytes dn ++ ber.Bytes ava
           /\ hd_error (ber.Bytes p) = Some x6e
           /\ (wire.consistent ava -> wire.consistent p)).
Proof.
  intros dn item. unfold compare.encodeCompareRequest. fold item. split.
  - intros err. destruct item as [ava|err']; split; intros H; congruence.
  - intros p Hp. destruct item as [ava|err']; [|discriminate Hp].
    injection Hp as <-. exists ava. split; [reflexivity|].
    split; [reflexivity|]. split; [reflexivity|]. split; [reflexivity|].
    intros Hava.
    repeat apply wire_facts.consistent_AppendChild;
      try apply wire_facts.consistent_Encode; try apply wire_facts.consistent_leaf.
    exact Hava.
Qed.

(** X16, on the comparison of cn with "aaa", with the item encoder of
    the wire format and with one that fails. *)
Lemma encodeCompareRequest_outcome_witness :
  compare.encodeCompareRequest (pkg := failing.item) sample.cn_compare
  = Fail (OtherError "cannot encode item")
  /\ exists p ava,
       compare.encodeCompareRequest (pkg := sample.package) sample.cn_compare = Ok p
       /\ compare.encodeItem_model ["cn"; "="; "aaa"]%string = Ok ava
       /\ ber.Children p
          = [ ber.NewString ber.ClassUniversal ber.TypePrimitive ber.TagOctetString
                "cn=test,ou=People,dc=example,dc=com" "LDAP DN";
              ava ]
       /\ hd_error (ber.Bytes p) = Some x6e.
Proof.
  split.
  - apply (proj1 (encodeCompareRequest_outcome (pkg := failing.item) sample.cn_compare)).
    reflexivity.
  - destruct (compare.encodeCompareRequest (pkg := sample.package) sample.cn_compare) as [p|err] eqn:Hp;
      [|discriminate Hp].
    destruct (proj2 (encodeCompareRequest_outcome (pkg := sample.package) sample.cn_compare) p Hp)
      as [ava [Hitem [Hchildren [_ [Hhead _]]]]].
    exists p, ava. repeat split; assumption.
Defined.
